(** * SIP calculator: the future-value formula and the report built on it

    A shallow embedding of [main.py] (class [SIPCalculator] and [main]).

    The program is read twice.

    - Control flow, the fund list and the page are modelled once, with the
      amounts carried as exact rationals [Q]: what is drawn, in which
      order, which branch is taken, what happens to the list.  In this
      reading the only failure of the arithmetic is the division by an
      exact zero.  The statements proved on it are about labels, lists,
      the order of events and the division by zero.

    - The numbers themselves are modelled in module [B64]: Python's
      [float] is IEEE 754 binary64 (Rocq's primitive floats), [int] is
      [Z], and every operator rounds, overflows and raises as CPython's
      does.  Everything that depends on the value of a float is stated
      there. *)

From Stdlib Require Import ZArith QArith Qround Qpower Lqa Lia.
From Stdlib Require Import String DecimalString.
From Stdlib Require Import PrimFloat SpecFloat FloatOps.
From stdpp Require Import base option list strings.

Local Open Scope Q_scope.

(** ** Exceptions and outcomes of Python expressions *)

Inductive exception : Type :=
| ZeroDivisionError.

Inductive result (A : Type) : Type :=
| Ok (a : A)
| Raise (e : exception).

Arguments Ok {A} a.
Arguments Raise {A} e.

(** An exception raised by a sub-expression leaves the enclosing function. *)
#[global] Instance result_bind : MBind result := fun A B k m =>
  match m with
  | Ok a => k a
  | Raise e => Raise e
  end.

(** ** Python arithmetic, exact reading *)

Module Py.

(** [x / y] *)
Definition truediv (x y : Q) : result Q :=
  if Qeq_bool y 0 then Raise ZeroDivisionError else Ok (x / y).

(** [x ** n] for a float [x] and an int [n] *)
Definition pow (x : Q) (n : Z) : result Q :=
  if Qeq_bool x 0 && (n <? 0)%Z then Raise ZeroDivisionError else Ok (x ^ n).

(** [round(x, 2)]: the nearest multiple of 1/100, ties to the even one. *)
Definition round_half_even (x : Q) : Z :=
  let f := Qfloor x in
  let d := x - inject_Z f in
  match Qcompare d (1 # 2) with
  | Lt => f
  | Gt => (f + 1)%Z
  | Eq => if Z.even f then f else (f + 1)%Z
  end.

Definition round2 (x : Q) : Q := inject_Z (round_half_even (x * 100)) / 100.

End Py.

(** ** The calculator *)

(** [SIPCalculator.calculate_sip_future_value] *)
Definition calculate_sip_future_value
    (monthly_investment rate_of_return : Q) (years : Z) : result Q :=
  let months := (years * 12)%Z in
  let monthly_rate := rate_of_return / 100 / 12 in
  p ← Py.pow (1 + monthly_rate) months;
  q ← Py.truediv (p - 1) monthly_rate;
  Ok (monthly_investment * q * (1 + monthly_rate)).

(** The amount paid in, as the report computes it:
    [fund["monthly_investment"] * fund["years"] * 12]. *)
Definition invested_amount_of (monthly_investment : Q) (years : Z) : Q :=
  monthly_investment * inject_Z years * 12.

(** The annuity-due future value in the words of the specification:
    [n = years * 12], [r = annual_rate_percent / 100 / 12],
    [c * (((1 + r)^n - 1) / r) * (1 + r)]. *)
Definition annuity_due_future_value
    (monthly_contribution annual_rate_percent : Q) (years : Z) : Q :=
  let n := (years * 12)%Z in
  let r := annual_rate_percent / 100 / 12 in
  monthly_contribution * (((1 + r) ^ n - 1) / r) * (1 + r).

(** ** Fund records and the session *)

(** One entry of [st.session_state.funds]: a dict with the four keys the
    program reads and writes. *)
Record Fund : Type := {
  fund_name : string;
  monthly_investment : Q;
  rate_of_return : Q;
  years : Z
}.

(** One row of the per-fund table ([data], later the DataFrame [df]); the
    fields are the columns "Fund Name", "Invested Amount", "Estimated
    Returns" and "Future Value". *)
Record row : Type := {
  Fund_Name : string;
  Invested_Amount : Q;
  Estimated_Returns : Q;
  Future_Value : Q
}.

(** The single row of the summary table. *)
Record summary_row : Type := {
  Total_Invested_Amount : Q;
  Total_Estimated_Returns : Q;
  Total_Future_Value : Q
}.

(** What [pd.read_csv] hands back for an uploaded file: a DataFrame, seen
    through its column index and its [to_dict('records')], or an exception
    with its message.  Cells of columns the program never reads are not
    represented, and the records are those of a table whose cells have the
    types of the form (a text, two floats, an int); what the widgets do
    with cells of other types is outside this reading. *)
Record DataFrame : Type := {
  columns : list string;
  to_dict_records : list Fund
}.

Inductive read_csv_outcome : Type :=
| CsvFrame (df : DataFrame)
| CsvRaises (message : string).

(** The values the input widgets return during one run of the script,
    addressed by widget key (by label for a button without key).  A widget
    call is taken to return; Streamlit's own refusals of an argument are
    not represented. *)
Record browser : Type := {
  file_uploader : option read_csv_outcome;
  text_input : string -> string -> string;
  number_input_float : string -> Q -> Q;
  number_input_int : string -> Z -> Z;
  button : string -> bool
}.

(** What a run puts on the page.  A number shown through a [.2f] format is
    kept as the number that is formatted. *)
Inductive csv_payload : Type :=
| DetailsCsv (df : list row)
| SummaryCsv (summary_data : summary_row).

Inductive element : Type :=
| Write (body : string)
| Caption (body : string)
| Error (body : string)
| Success (body : string)
| Warning (body : string)
| Subheader (body : string)
| Divider
| PieChart (df : list row)
| Metric (label : string) (value : Q) (delta : option Q)
| Dataframe (df : list row)
| DownloadButton (label : string) (data : csv_payload) (file_name : string).

(** ** Scripts: session state, page output, exceptions and reruns *)

Inductive outcome (A : Type) : Type :=
| Done (a : A)
| Failed (e : exception)
| Rerun.

Arguments Done {A} a.
Arguments Failed {A} e.
Arguments Rerun {A}.

(** A script maps the fund list of the session ([st.session_state.funds],
    once [initialize_session_state] has created it) to its outcome, the fund
    list it leaves and the elements it has drawn, in order.  Layout calls
    (containers, columns) draw nothing of their own and are left out. *)
Definition script (A : Type) : Type :=
  list Fund -> outcome A * list Fund * list element.

#[global] Instance script_ret : MRet script := fun A a funds =>
  (Done a, funds, []).

#[global] Instance script_bind : MBind script := fun A B k m funds =>
  match m funds with
  | (Done a, funds', out) =>
      let '(o, funds'', out') := k a funds' in (o, funds'', out ++ out')
  | (Failed e, funds', out) => (Failed e, funds', out)
  | (Rerun, funds', out) => (Rerun, funds', out)
  end.

Definition get_funds : script (list Fund) := fun funds => (Done funds, funds, []).

Definition set_funds (new : list Fund) : script unit := fun _ => (Done tt, new, []).

Definition draw (e : element) : script unit := fun funds => (Done tt, funds, [e]).

(** [st.rerun()] *)
Definition st_rerun : script unit := fun funds => (Rerun, funds, []).

Definition lift {A : Type} (r : result A) : script A := fun funds =>
  match r with
  | Ok a => (Done a, funds, [])
  | Raise e => (Failed e, funds, [])
  end.

(** [str(n)] for a non-negative int *)
Definition str (n : nat) : string := NilEmpty.string_of_uint (Nat.to_uint n).

(** ** Entering the funds *)

Definition required_columns : list string :=
  ["fund_name"; "monthly_investment"; "rate_of_return"; "years"]%string.

(** The upload block of [render_fund_inputs]: the [try] around
    [pd.read_csv], the column check and the assignment to
    [st.session_state.funds]. *)
Definition handle_csv_upload (uploaded_file : option read_csv_outcome) : script unit :=
  match uploaded_file with
  | None => mret tt
  | Some (CsvRaises e) => draw (Error ("Error processing CSV: " ++ e)%string)
  | Some (CsvFrame df) =>
      let missing_columns := filter (λ col, col ∉ columns df) required_columns in
      match missing_columns with
      | _ :: _ =>
          draw (Error ("Missing columns in CSV: "
                       ++ String.concat ", " missing_columns)%string)
      | [] =>
          set_funds (to_dict_records df);;
          funds ← get_funds;
          draw (Success ("Successfully uploaded " ++ str (length funds)
                         ++ " funds!")%string)
      end
  end.

(** The four assignments [fund[...] = st.<widget>(..., value=fund[...])]
    for the fund at index [i]. *)
Definition edit_fund (ui : browser) (i : nat) (fund : Fund) : Fund :=
  {| fund_name := text_input ui ("fund_name_" ++ str i)%string (fund_name fund);
     monthly_investment :=
       number_input_float ui ("monthly_investment_" ++ str i)%string
                          (monthly_investment fund);
     rate_of_return :=
       number_input_float ui ("rate_" ++ str i)%string (rate_of_return fund);
     years := number_input_int ui ("years_" ++ str i)%string (years fund) |}.

(** The loop over [enumerate(st.session_state.funds)]: [todo] is what is
    left to visit, [i] the index reached.  The entry is updated in place in
    the session's list; a click on its remove button pops it and reruns. *)
Fixpoint fund_rows (ui : browser) (i : nat) (todo : list Fund) : script unit :=
  match todo with
  | [] => mret tt
  | fund :: rest =>
      draw (Write ("#### Fund " ++ str (i + 1))%string);;
      funds ← get_funds;
      set_funds (<[i := edit_fund ui i fund]> funds);;
      if button ui ("remove_" ++ str i)%string
      then funds ← get_funds; set_funds (delete i funds);; st_rerun
      else fund_rows ui (S i) rest
  end.

(** The dict appended by the add button. *)
Definition default_fund : Fund :=
  {| fund_name := ""; monthly_investment := 1000; rate_of_return := 7; years := 10 |}.

(** The label of the add button, which is also its key. *)
Definition button_text (funds : list Fund) : string :=
  if Nat.eqb (length funds) 0 then "Add Fund" else "Add Another Fund".

(** The add button of [render_fund_inputs]. *)
Definition add_fund_button (ui : browser) : script unit :=
  funds ← get_funds;
  if button ui (button_text funds)
  then funds ← get_funds; set_funds (funds ++ [default_fund]);; st_rerun
  else mret tt.

(** [SIPCalculator.render_fund_inputs] *)
Definition render_fund_inputs (ui : browser) : script unit :=
  draw (Write "### Add Multiple SIPs");;
  draw (Caption "Configure your Systematic Investment Plans");;
  handle_csv_upload (file_uploader ui);;
  funds ← get_funds;
  fund_rows ui 0 funds;;
  add_fund_button ui;;
  draw Divider.

(** ** The report *)

(** The variables the report loop updates. *)
Record totals : Type := {
  total_future_value : Q;
  total_invested_amount : Q;
  data : list row
}.

(** The variables of the loop before its first iteration. *)
Definition no_totals : totals :=
  {| total_future_value := 0; total_invested_amount := 0; data := [] |}.

(** The body of the loop over [enumerate(st.session_state.funds)] in
    [calculate_and_visualize], at index [idx]. *)
Definition report_step (idx : nat) (fund : Fund) (acc : totals) : result totals :=
  future_value ← calculate_sip_future_value
                   (monthly_investment fund) (rate_of_return fund) (years fund);
  let invested_amount := monthly_investment fund * inject_Z (years fund) * 12 in
  Ok {| total_future_value := total_future_value acc + future_value;
        total_invested_amount := total_invested_amount acc + invested_amount;
        data := data acc ++
          [ {| Fund_Name :=
                 if decide (fund_name fund = ""%string)
                 then ("Fund " ++ str (idx + 1))%string else fund_name fund;
               Invested_Amount := Py.round2 invested_amount;
               Estimated_Returns := Py.round2 (future_value - invested_amount);
               Future_Value := Py.round2 future_value |} ] |}.

Fixpoint report_loop (idx : nat) (funds : list Fund) (acc : totals) : result totals :=
  match funds with
  | [] => Ok acc
  | fund :: rest =>
      acc' ← report_step idx fund acc;
      report_loop (S idx) rest acc'
  end.

(** [SIPCalculator.calculate_and_visualize] *)
Definition calculate_and_visualize : script unit :=
  funds ← get_funds;
  match funds with
  | [] => draw (Warning "Please add at least one fund.")
  | _ :: _ =>
      t ← lift (report_loop 0 funds no_totals);
      let total_estimated_return := total_future_value t - total_invested_amount t in
      let df := data t in
      draw (Subheader "📊 Investment Allocation");;
      draw (PieChart df);;
      draw Divider;;
      draw (Subheader "💰 Investment Metrics");;
      draw (Metric "Total Invested" (total_invested_amount t) None);;
      return_pct ← lift (Py.truediv total_estimated_return (total_invested_amount t));
      draw (Metric "Estimated Returns" total_estimated_return (Some (return_pct * 100)));;
      future_pct ← lift (Py.truediv (total_future_value t) (total_invested_amount t));
      draw (Metric "Future Value" (total_future_value t) (Some (future_pct * 100)));;
      draw Divider;;
      draw (Subheader "📝 Detailed Fund Analysis");;
      draw (Dataframe df);;
      draw (Subheader "💾 Download Data");;
      draw (DownloadButton "Download Fund Details as CSV" (DetailsCsv df)
                           "sip_investment_details.csv");;
      draw (DownloadButton "Download Summary as CSV"
              (SummaryCsv
                 {| Total_Invested_Amount := Py.round2 (total_invested_amount t);
                    Total_Estimated_Returns := Py.round2 total_estimated_return;
                    Total_Future_Value := Py.round2 (total_future_value t) |})
              "sip_investment_summary.csv")
  end.

(** What a completed run of [calculate_and_visualize] draws from the
    variables the loop has left. *)
Definition report_elements (t : totals) : list element :=
  let total_estimated_return := total_future_value t - total_invested_amount t in
  [ Subheader "📊 Investment Allocation";
    PieChart (data t);
    Divider;
    Subheader "💰 Investment Metrics";
    Metric "Total Invested" (total_invested_amount t) None;
    Metric "Estimated Returns" total_estimated_return
           (Some (total_estimated_return / total_invested_amount t * 100));
    Metric "Future Value" (total_future_value t)
           (Some (total_future_value t / total_invested_amount t * 100));
    Divider;
    Subheader "📝 Detailed Fund Analysis";
    Dataframe (data t);
    Subheader "💾 Download Data";
    DownloadButton "Download Fund Details as CSV" (DetailsCsv (data t))
                   "sip_investment_details.csv";
    DownloadButton "Download Summary as CSV"
      (SummaryCsv
         {| Total_Invested_Amount := Py.round2 (total_invested_amount t);
            Total_Estimated_Returns := Py.round2 total_estimated_return;
            Total_Future_Value := Py.round2 (total_future_value t) |})
      "sip_investment_summary.csv" ].

(** What is drawn before the first percentage is computed. *)
Definition report_head (t : totals) : list element := take 5 (report_elements t).

(** ** Per-fund quantities and sums *)

Definition Qsum (l : list Q) : Q := foldr Qplus 0 l.

Definition fund_future_value (fund : Fund) : result Q :=
  calculate_sip_future_value
    (monthly_investment fund) (rate_of_return fund) (years fund).

Definition fund_invested_amount (fund : Fund) : Q :=
  invested_amount_of (monthly_investment fund) (years fund).

(** The table row of the fund at index [idx] whose future value is
    [future_value]: the name or its positional label, and the three amounts
    rounded to two decimals. *)
Definition table_row (idx : nat) (fund : Fund) (future_value : Q) : row :=
  {| Fund_Name :=
       if decide (fund_name fund = ""%string)
       then ("Fund " ++ str (idx + 1))%string else fund_name fund;
     Invested_Amount := Py.round2 (fund_invested_amount fund);
     Estimated_Returns := Py.round2 (future_value - fund_invested_amount fund);
     Future_Value := Py.round2 future_value |}.

(** The rows for the funds [funds], the first of them at index [idx]. *)
Fixpoint table_rows (idx : nat) (funds : list Fund) (fvs : list Q) : list row :=
  match funds, fvs with
  | fund :: funds', fv :: fvs' => table_row idx fund fv :: table_rows (S idx) funds' fvs'
  | _, _ => []
  end.

(** The future values of all funds, when the calculator returns for each. *)
Fixpoint future_values (funds : list Fund) : result (list Q) :=
  match funds with
  | [] => Ok []
  | fund :: rest =>
      fv ← fund_future_value fund;
      fvs ← future_values rest;
      Ok (fv :: fvs)
  end.

(** The required columns that the header of [df] lacks. *)
Definition missing_columns (df : DataFrame) : list string :=
  filter (λ col, col ∉ columns df) required_columns.

(** A browser in which nothing is edited and no remove button is clicked:
    each input widget returns the value it is given. *)
Definition untouched (ui : browser) : Prop :=
  (forall key value, text_input ui key value = value)
  /\ (forall key value, number_input_float ui key value = value)
  /\ (forall key value, number_input_int ui key value = value)
  /\ (forall i, button ui ("remove_" ++ str i)%string = false).

(** ** Sample portfolios *)

(** One unnamed fund: 1000 a month at 12 percent for one year. *)
Definition one_year_fund : Fund :=
  {| fund_name := ""; monthly_investment := 1000; rate_of_return := 12; years := 1 |}.

(** A named fund into which nothing is paid. *)
Definition idle_fund : Fund :=
  {| fund_name := "Idle"; monthly_investment := 0; rate_of_return := 7; years := 10 |}.

(** A table without the column [years], and a complete one. *)
Definition frame_without_years : DataFrame :=
  {| columns := ["fund_name"; "monthly_investment"; "rate_of_return"]%string;
     to_dict_records := [one_year_fund] |}.

Definition complete_frame : DataFrame :=
  {| columns := ["fund_name"; "monthly_investment"; "rate_of_return"; "years"; "note"]%string;
     to_dict_records := [one_year_fund; idle_fund] |}.

(** A browser with an untouched form in which the add button is clicked. *)
Definition add_click : browser :=
  {| file_uploader := None;
     text_input := fun _ value => value;
     number_input_float := fun _ value => value;
     number_input_int := fun _ value => value;
     button := fun key => String.eqb key "Add Another Fund" |}.

(** ** Clicks and form elements *)

(** The remove button of the fund at index [i] is clicked and none before
    it is. *)
Definition first_remove_click (ui : browser) (i : nat) : Prop :=
  button ui ("remove_" ++ str i)%string = true
  /\ forall j, (j < i)%nat -> button ui ("remove_" ++ str j)%string = false.

(** The elements [render_fund_inputs] draws: texts, messages and dividers,
    as opposed to the elements of a report. *)
Definition form_element (e : element) : Prop :=
  match e with
  | Write _ | Caption _ | Error _ | Success _ | Divider => True
  | _ => False
  end.

(** A run that has not failed and has drawn form elements only. *)
Definition form_run {A : Type} (r : outcome A * list Fund * list element) : Prop :=
  (forall e, r.1.1 <> Failed e) /\ Forall form_element r.2.

(** ** Sample browsers *)

(** The name "Gold" is typed into the first fund; nothing is clicked. *)
Definition typing : browser :=
  {| file_uploader := None;
     text_input := fun key value =>
       if String.eqb key "fund_name_0" then "Gold"%string else value;
     number_input_float := fun _ value => value;
     number_input_int := fun _ value => value;
     button := fun _ => false |}.

(** The remove button of the second fund is clicked, in an otherwise
    untouched form. *)
Definition remove_second : browser :=
  {| file_uploader := None;
     text_input := fun _ value => value;
     number_input_float := fun _ value => value;
     number_input_int := fun _ value => value;
     button := fun key => String.eqb key "remove_1" |}.

(** A complete table is uploaded; nothing is typed or clicked. *)
Definition uploading : browser :=
  {| file_uploader := Some (CsvFrame complete_frame);
     text_input := fun _ value => value;
     number_input_float := fun _ value => value;
     number_input_int := fun _ value => value;
     button := fun _ => false |}.

(** ** The page *)

(** What [main] and [render_instructions] put on the page around the form
    and the report: the title and the expander with the instructions, whose
    static text is not represented.  [st.set_page_config] draws nothing. *)
Inductive page_element : Type :=
| Title (body : string)
| Instructions
| Body (e : element).

(** [SIPCalculator.initialize_session_state]; [None] is a session state
    without the key [funds]. *)
Definition initialize_session_state (session : option (list Fund)) : list Fund :=
  match session with
  | Some funds => funds
  | None => []
  end.

(** [SIPCalculator.render_instructions] *)
Definition render_instructions : list page_element :=
  [Instructions; Body Divider].

(** The form, then the report if its button is clicked. *)
Definition form_then_report (ui : browser) : script unit :=
  render_fund_inputs ui;;
  if button ui "Calculate Future Values" then calculate_and_visualize else mret tt.

(** [main]: one run of the script on the session state [session]. *)
Definition main (ui : browser) (session : option (list Fund))
  : outcome unit * list Fund * list page_element :=
  let '(o, funds, out) := form_then_report ui (initialize_session_state session) in
  (o, funds,
   Title "💰 SIP Investment Calculator"
   :: Body (Caption "Plan and Visualize Your Systematic Investment Strategy")
   :: render_instructions ++ (Body <$> out)).

(** The page elements that are not part of a report. *)
Definition outside_report (e : page_element) : Prop :=
  match e with
  | Body e' => form_element e'
  | _ => True
  end.

(** A first visit in which the button of the report is clicked at once. *)
Definition calculate_at_once : browser :=
  {| file_uploader := None;
     text_input := fun _ value => value;
     number_input_float := fun _ value => value;
     number_input_int := fun _ value => value;
     button := fun key => String.eqb key "Calculate Future Values" |}.

(** The name "Gold" is typed into the first fund and the button of the
    report is clicked. *)
Definition typing_then_calculate : browser :=
  {| file_uploader := None;
     text_input := fun key value =>
       if String.eqb key "fund_name_0" then "Gold"%string else value;
     number_input_float := fun _ value => value;
     number_input_int := fun _ value => value;
     button := fun key => String.eqb key "Calculate Future Values" |}.

(** * The numbers in binary64 *)

Module B64.

(** ** Exceptions *)

Inductive exception : Type :=
| ZeroDivisionError
| OverflowError.

Inductive result (A : Type) : Type :=
| Ok (a : A)
| Raise (e : exception).

Arguments Ok {A} a.
Arguments Raise {A} e.

#[global] Instance result_bind : MBind result := fun A B k m =>
  match m with
  | Ok a => k a
  | Raise e => Raise e
  end.

(** ** Floats and the numbers they stand for *)

(** The rational a finite float stands for (zero for the others, which the
    callers set apart first). *)
Definition to_Q (x : float) : Q :=
  match Prim2SF x with
  | S754_finite s m e => Qred (inject_Z (cond_Zopp s (Zpos m)) * 2 ^ e)
  | _ => 0
  end.

(** The float nearest to a rational, ties to the even mantissa, infinite
    beyond the range.  The quotient is taken with at least 66 bits and a
    sticky last bit, then rounded once. *)
Definition of_Q (q : Q) : float :=
  let n := Qnum q in
  let d := Zpos (Qden q) in
  if (n =? 0)%Z then zero
  else
    let k := Z.max 0 (66 + Z.log2 d - Z.log2 (Z.abs n)) in
    let num := (Z.abs n * 2 ^ k)%Z in
    let m := (2 * (num / d) + (if (num mod d =? 0)%Z then 0 else 1))%Z in
    SF2Prim (binary_normalize prec emax
               (if (n <? 0)%Z then (- m)%Z else m) (- k - 1) false).

(** The integer an integral float stands for. *)
Definition integer_of (w : float) : Z := Qfloor (to_Q w).

(** ** Python's operators on [float] *)

(** [float(n)] for an int, as in [x * n] or [x ** n]: the nearest float,
    [OverflowError] when the int is too large. *)
Definition float_of_int (n : Z) : result float :=
  let x := of_Q (inject_Z n) in
  if is_infinity x then Raise OverflowError else Ok x.

(** [x / y] *)
Definition truediv (x y : float) : result float :=
  if (y =? 0)%float then Raise ZeroDivisionError else Ok (x / y)%float.

(** The C library's [pow] on the arguments CPython passes to it: [v]
    finite, positive and different from one, [w] finite, integral and not
    zero.  It is taken to return the correctly rounded power (infinite when
    out of range), which is what IEEE 754 recommends and what the library
    delivers up to rare differences in the last bit. *)
Definition libm_pow (v w : float) : float := of_Q (to_Q v ^ integer_of w).

(** [x ** n] for a float [x] and an int [n], following [float_pow]: the
    special cases are decided before the C library is called, a zero base
    with a negative exponent raises [ZeroDivisionError], a result out of
    range raises [OverflowError]. *)
Definition pow (x : float) (n : Z) : result float :=
  w ← float_of_int n;
  if is_zero w then Ok 1%float
  else if is_nan x then Ok x
  else
    let odd := Z.odd (integer_of w) in
    if is_infinity x then
      Ok (if (0 <? w)%float
          then (if odd then x else abs x)
          else (if odd then (if get_sign x then neg_zero else zero) else zero))
    else if is_zero x then
      if (w <? 0)%float then Raise ZeroDivisionError
      else Ok (if odd then x else zero)
    else
      let negate_result := (x <? 0)%float && odd in
      let v := abs x in
      if (v =? 1)%float then Ok (if negate_result then (-1)%float else 1%float)
      else
        let ix := libm_pow v w in
        if is_infinity ix then Raise OverflowError
        else Ok (if negate_result then (- ix)%float else ix).

(** [round(x, 2)]: the decimal with two places nearest to the exact value
    of [x] (ties to the even one), then the float nearest to that decimal;
    the sign of a zero result is the sign of [x]; infinities and NaN are
    returned as they are. *)
Definition round2 (x : float) : float :=
  if is_finite x then
    let r := of_Q (inject_Z (Py.round_half_even (to_Q x * 100)) / 100) in
    if is_zero r then (if get_sign x then neg_zero else zero) else r
  else x.


(** ** The calculator *)

(** [SIPCalculator.calculate_sip_future_value] *)
Definition calculate_sip_future_value
    (monthly_investment rate_of_return : float) (years : Z) : result float :=
  let months := (years * 12)%Z in
  let monthly_rate := (rate_of_return / 100 / 12)%float in
  p ← pow (1 + monthly_rate)%float months;
  q ← truediv (p - 1)%float monthly_rate;
  Ok (monthly_investment * q * (1 + monthly_rate))%float.

(** The annuity-due expression of the specification,
    [c * (((1 + r)^n - 1) / r) * (1 + r)], every operation in binary64,
    [p] being the value of [(1 + r)^n]. *)
Definition annuity_due (monthly_contribution r p : float) : float :=
  (monthly_contribution * ((p - 1) / r) * (1 + r))%float.

(** ** The report loop *)

(** One entry of [st.session_state.funds]. *)
Record Fund : Type := {
  fund_name : string;
  monthly_investment : float;
  rate_of_return : float;
  years : Z
}.

(** One row of the per-fund table. *)
Record row : Type := {
  Fund_Name : string;
  Invested_Amount : float;
  Estimated_Returns : float;
  Future_Value : float
}.

(** The variables the report loop updates. *)
Record totals : Type := {
  total_future_value : float;
  total_invested_amount : float;
  data : list row
}.

(** The variables of the loop before its first iteration ([0 + x] for the
    int [0] is [0.0 + x]). *)
Definition no_totals : totals :=
  {| total_future_value := 0; total_invested_amount := 0; data := [] |}.

(** [fund["monthly_investment"] * fund["years"] * 12] *)
Definition invested_amount (fund : Fund) : result float :=
  y ← float_of_int (years fund);
  Ok (monthly_investment fund * y * 12)%float.

(** The call of the calculator for a fund. *)
Definition future_value (fund : Fund) : result float :=
  calculate_sip_future_value
    (monthly_investment fund) (rate_of_return fund) (years fund).

(** The row appended for the fund at index [idx]. *)
Definition table_row (idx : nat) (fund : Fund) (fv inv : float) : row :=
  {| Fund_Name :=
       if decide (fund_name fund = ""%string)
       then ("Fund " ++ str (idx + 1))%string else fund_name fund;
     Invested_Amount := round2 inv;
     Estimated_Returns := round2 (fv - inv)%float;
     Future_Value := round2 fv |}.

(** The body of the loop of [calculate_and_visualize] at index [idx]. *)
Definition report_step (idx : nat) (fund : Fund) (acc : totals) : result totals :=
  fv ← future_value fund;
  inv ← invested_amount fund;
  Ok {| total_future_value := (total_future_value acc + fv)%float;
        total_invested_amount := (total_invested_amount acc + inv)%float;
        data := data acc ++ [table_row idx fund fv inv] |}.

Fixpoint report_loop (idx : nat) (funds : list Fund) (acc : totals) : result totals :=
  match funds with
  | [] => Ok acc
  | fund :: rest =>
      acc' ← report_step idx fund acc;
      report_loop (S idx) rest acc'
  end.

(** [total_estimated_return = total_future_value - total_invested_amount] *)
Definition total_estimated_return (t : totals) : float :=
  (total_future_value t - total_invested_amount t)%float.

(** ** Per-fund values *)

(** The values of the calculator and the invested amounts of all funds,
    when every one of them is returned. *)
Fixpoint per_fund (funds : list Fund) : result (list (float * float)) :=
  match funds with
  | [] => Ok []
  | fund :: rest =>
      fv ← future_value fund;
      inv ← invested_amount fund;
      vs ← per_fund rest;
      Ok ((fv, inv) :: vs)
  end.

(** The rows for [funds] with the values [vs], the first at index [idx]. *)
Fixpoint table_rows (idx : nat) (funds : list Fund) (vs : list (float * float))
  : list row :=
  match funds, vs with
  | fund :: funds', (fv, inv) :: vs' =>
      table_row idx fund fv inv :: table_rows (S idx) funds' vs'
  | _, _ => []
  end.

(** ** Sample funds *)

(** 1000 a month at 12 percent for one year. *)
Definition one_year_fund : Fund :=
  {| fund_name := ""; monthly_investment := 1000; rate_of_return := 12; years := 1 |}.

(** The fund the add button appends. *)
Definition default_fund : Fund :=
  {| fund_name := ""; monthly_investment := 1000; rate_of_return := 7; years := 10 |}.

End B64.

(** * Properties of the calculator *)

Lemma Qeq_bool_false (x y : Q) : ~ x == y -> Qeq_bool x y = false.
Proof.
  intros Hne. destruct (Qeq_bool x y) eqn:E; [|reflexivity].
  apply Qeq_bool_iff in E. contradiction.
Qed.

Lemma Qeq_bool_true (x y : Q) : x == y -> Qeq_bool x y = true.
Proof. apply Qeq_bool_iff. Qed.

Lemma truediv_nonzero (x y : Q) : ~ y == 0 -> Py.truediv x y = Ok (x / y).
Proof. intros Hy. unfold Py.truediv. now rewrite Qeq_bool_false. Qed.

Lemma truediv_zero (x y : Q) : y == 0 -> Py.truediv x y = Raise ZeroDivisionError.
Proof. intros Hy. unfold Py.truediv. now rewrite Qeq_bool_true. Qed.

Lemma pow_nonzero_base (x : Q) (n : Z) : ~ x == 0 -> Py.pow x n = Ok (x ^ n).
Proof. intros Hx. unfold Py.pow. now rewrite Qeq_bool_false. Qed.

Section MonthlyRate.

Variable rate_of_return : Q.

Let monthly_rate := rate_of_return / 100 / 12.

Lemma monthly_rate_scaled : monthly_rate * 1200 == rate_of_return.
Proof. unfold monthly_rate. field. Qed.

Lemma monthly_rate_pos : 0 < rate_of_return -> 0 < monthly_rate.
Proof. intros H. pose proof monthly_rate_scaled. lra. Qed.

Lemma monthly_rate_zero : rate_of_return == 0 -> monthly_rate == 0.
Proof. intros H. pose proof monthly_rate_scaled. lra. Qed.

(** With a non-zero monthly rate and a base [1 + monthly_rate] that is not
    zero, no operator raises and the value is the one of the expression. *)
Lemma calculate_sip_future_value_defined (monthly_investment : Q) (years : Z) :
  ~ monthly_rate == 0 -> ~ 1 + monthly_rate == 0 ->
  calculate_sip_future_value monthly_investment rate_of_return years
  = Ok (annuity_due_future_value monthly_investment rate_of_return years).
Proof.
  intros Hr Hb. unfold calculate_sip_future_value, annuity_due_future_value.
  fold monthly_rate.
  rewrite (pow_nonzero_base _ _ Hb). cbn.
  rewrite (truediv_nonzero _ _ Hr). reflexivity.
Qed.

End MonthlyRate.

(** ** Zero rate *)

(** C1 (code side).  With [rate_of_return = 0] the monthly rate is zero and
    the division [((1 + monthly_rate) ** months - 1) / monthly_rate] raises
    [ZeroDivisionError], for every contribution and every number of years:
    the calculator has no branch for the zero rate and never returns
    [c * years * 12] there. *)
Theorem zero_rate_raises (c : Q) (years : Z) :
  calculate_sip_future_value c 0 years = Raise ZeroDivisionError.
Proof.
  unfold calculate_sip_future_value.
  rewrite pow_nonzero_base by (intros H; vm_compute in H; discriminate).
  cbn. rewrite truediv_zero by reflexivity. reflexivity.
Qed.

Example scenario_B_raises :
  calculate_sip_future_value 1000 0 5 = Raise ZeroDivisionError.
Proof. reflexivity. Qed.

(** ** Positive rate, exact reading *)

Lemma positive_rate_defined (c rate : Q) (years : Z) :
  0 < rate ->
  calculate_sip_future_value c rate years
  = Ok (annuity_due_future_value c rate years).
Proof.
  intros Hrate.
  pose proof (monthly_rate_pos rate Hrate) as Hr.
  apply calculate_sip_future_value_defined; lra.
Qed.

(** ** The annuity-due expression against the principal, in exact arithmetic *)

Lemma Qpower_succ (q : Q) (n : nat) :
  ~ q == 0 -> q ^ Z.of_nat (S n) == q ^ Z.of_nat n * q.
Proof.
  intros Hq. rewrite Nat2Z.inj_succ, <- Z.add_1_r.
  rewrite Qpower_plus by assumption. reflexivity.
Qed.

(** Bernoulli's inequality, by induction on the number of periods. *)
Lemma bernoulli_nat (r : Q) (n : nat) :
  0 <= r -> 1 + inject_Z (Z.of_nat n) * r <= (1 + r) ^ Z.of_nat n.
Proof.
  intros Hr. induction n as [|n IH].
  - change (1 + inject_Z 0 * r <= 1). change (inject_Z 0) with 0. lra.
  - rewrite Qpower_succ by lra.
    rewrite Nat2Z.inj_succ, <- Z.add_1_r, inject_Z_plus.
    assert (0 <= inject_Z (Z.of_nat n)) as Hn.
    { change 0 with (inject_Z 0). rewrite <- Zle_Qle. lia. }
    change (inject_Z 1) with 1. nra.
Qed.

Lemma bernoulli (r : Q) (n : Z) :
  0 <= r -> (0 <= n)%Z -> 1 + inject_Z n * r <= (1 + r) ^ n.
Proof.
  intros Hr Hn. rewrite <- (Z2Nat.id n Hn). now apply bernoulli_nat.
Qed.

(** The annuity factor [((1 + r)^n - 1) / r * (1 + r)] exceeds the number of
    periods. *)
Lemma annuity_factor_gt_periods (r : Q) (n : Z) :
  0 < r -> (1 <= n)%Z -> inject_Z n < ((1 + r) ^ n - 1) / r * (1 + r).
Proof.
  intros Hr Hn.
  assert (1 <= inject_Z n) as Hn'.
  { change 1 with (inject_Z 1). rewrite <- Zle_Qle. lia. }
  assert (inject_Z n <= ((1 + r) ^ n - 1) / r) as Hs.
  { apply Qle_shift_div_l; [assumption|].
    pose proof (bernoulli r n ltac:(lra) ltac:(lia)). lra. }
  nra.
Qed.

(** In exact arithmetic the annuity-due expression is at least the amount
    paid in, and more when the contribution is positive.  This is a fact
    about the expression; the binary64 value the calculator returns can lie
    below the amount paid in (see [binary64_small_rate]). *)
Lemma annuity_due_vs_principal (c rate : Q) (years : Z) :
  0 <= c -> 0 < rate -> (1 <= years)%Z ->
  invested_amount_of c years <= annuity_due_future_value c rate years
  /\ (0 < c -> invested_amount_of c years < annuity_due_future_value c rate years).
Proof.
  intros Hc Hrate Hy.
  pose proof (monthly_rate_pos rate Hrate) as Hr.
  pose proof (annuity_factor_gt_periods _ (years * 12) Hr ltac:(lia)) as HF.
  rewrite inject_Z_mult in HF. change (inject_Z 12) with 12 in HF.
  unfold invested_amount_of, annuity_due_future_value.
  set (r := rate / 100 / 12) in *.
  set (s := ((1 + r) ^ (years * 12) - 1) / r) in *.
  set (N := inject_Z years) in *.
  split; [|intros Hc']; nra.
Qed.

(** ** The annuity-due expression and the duration, in exact arithmetic *)

(** In exact arithmetic the annuity-due expression grows with the number
    of years, strictly when the contribution is positive.  Again a fact
    about the expression (see [binary64_tiny_rate]). *)
Lemma annuity_due_increasing (c rate : Q) (y1 y2 : Z) :
  0 <= c -> 0 < rate -> (y1 < y2)%Z ->
  annuity_due_future_value c rate y1 <= annuity_due_future_value c rate y2
  /\ (0 < c ->
      annuity_due_future_value c rate y1 < annuity_due_future_value c rate y2).
Proof.
  intros Hc Hrate Hy.
  pose proof (monthly_rate_pos rate Hrate) as Hr.
  unfold annuity_due_future_value.
  set (r := rate / 100 / 12) in *.
  assert ((1 + r) ^ (y1 * 12) < (1 + r) ^ (y2 * 12)) as Hpow.
  { apply Qpower_lt_compat_l; [lia | lra]. }
  assert (0 < / r) as Hinv by now apply Qinv_lt_0_compat.
  unfold Qdiv.
  set (p1 := (1 + r) ^ (y1 * 12)) in *.
  set (p2 := (1 + r) ^ (y2 * 12)) in *.
  set (i := / r) in *.
  assert (0 < (p2 - p1) * i) as Hd by (apply Qmult_lt_0_compat; lra).
  assert (0 < (p2 - p1) * i * (1 + r)) as Hd' by (apply Qmult_lt_0_compat; lra).
  split; [|intros Hc']; nra.
Qed.

(** * Properties of the report *)

(** ** The loop *)

Lemma report_step_unfold (idx : nat) (fund : Fund) (acc : totals) :
  report_step idx fund acc
  = fv ← fund_future_value fund;
    Ok {| total_future_value := total_future_value acc + fv;
          total_invested_amount := total_invested_amount acc + fund_invested_amount fund;
          data := data acc ++ [table_row idx fund fv] |}.
Proof. reflexivity. Qed.

(** When the loop completes, the calculator has returned for every fund,
    the two totals have grown by the sums of the unrounded per-fund values
    and one row per fund has been appended, in order. *)
Lemma report_loop_ok (funds : list Fund) :
  forall (idx : nat) (acc t : totals),
    report_loop idx funds acc = Ok t ->
    exists fvs,
      future_values funds = Ok fvs
      /\ total_future_value t == total_future_value acc + Qsum fvs
      /\ total_invested_amount t
         == total_invested_amount acc + Qsum (fund_invested_amount <$> funds)
      /\ data t = data acc ++ table_rows idx funds fvs.
Proof.
  induction funds as [|fund rest IH]; intros idx acc t Hloop.
  - injection Hloop as <-. exists []. unfold Qsum. cbn [fmap list_fmap foldr table_rows].
    split; [reflexivity|]. split; [lra|]. split; [lra|].
    now rewrite app_nil_r.
  - cbn [report_loop] in Hloop. rewrite report_step_unfold in Hloop.
    cbn [future_values].
    destruct (fund_future_value fund) as [fv|e]; [|discriminate].
    cbn [mbind result_bind] in Hloop.
    apply IH in Hloop as (fvs & Hfvs & Htfv & Htia & Hdata).
    exists (fv :: fvs). rewrite Hfvs.
    cbn [total_future_value total_invested_amount data] in Htfv, Htia, Hdata.
    unfold Qsum in *. cbn [mbind result_bind foldr fmap list_fmap table_rows].
    split; [reflexivity|]. split; [lra|]. split; [lra|].
    rewrite Hdata, <- app_assoc. reflexivity.
Qed.

(** ** The run *)

(** A run on a non-empty fund list leaves through one of three doors: an
    exception of the loop, the division by a zero total, or the end. *)
Lemma calculate_and_visualize_nonempty (fund : Fund) (rest : list Fund) :
  let funds := fund :: rest in
  calculate_and_visualize funds
  = match report_loop 0 funds no_totals with
    | Raise e => (Failed e, funds, [])
    | Ok t =>
        if Qeq_bool (total_invested_amount t) 0
        then (Failed ZeroDivisionError, funds, report_head t)
        else (Done tt, funds, report_elements t)
    end.
Proof.
  intros funds. unfold calculate_and_visualize, mbind, script_bind.
  cbn [get_funds]. fold funds.
  destruct (report_loop 0 funds no_totals) as [t|e]; cbn [lift]; [|reflexivity].
  cbn [draw app]. unfold Py.truediv.
  destruct (Qeq_bool (total_invested_amount t) 0); reflexivity.
Qed.

(** Whatever the outcome, the fund list of the session is the one the run
    started from. *)
Lemma calculate_and_visualize_keeps_funds (funds : list Fund) :
  (calculate_and_visualize funds).1.2 = funds.
Proof.
  destruct funds as [|fund rest]; [reflexivity|].
  rewrite calculate_and_visualize_nonempty.
  destruct (report_loop _ _ _) as [t|e]; [|reflexivity].
  destruct (Qeq_bool _ _); reflexivity.
Qed.

(** A completed run on a non-empty list has drawn the whole report from the
    variables of a completed loop with a non-zero invested total. *)
Lemma calculate_and_visualize_done (funds funds' : list Fund) (out : list element) :
  funds <> [] ->
  calculate_and_visualize funds = (Done tt, funds', out) ->
  exists t,
    report_loop 0 funds no_totals = Ok t
    /\ ~ total_invested_amount t == 0
    /\ funds' = funds
    /\ out = report_elements t.
Proof.
  intros Hne Hrun. destruct funds as [|fund rest]; [contradiction|].
  rewrite calculate_and_visualize_nonempty in Hrun.
  destruct (report_loop _ _ _) as [t|e]; [|discriminate].
  destruct (Qeq_bool _ _) eqn:E; [discriminate|].
  injection Hrun as <- <-. exists t. repeat split.
  now apply Qeq_bool_neq.
Qed.

(** ** Empty portfolio *)

(** C8.  On an empty fund list the run draws the warning that asks for a
    fund and nothing else, and ends normally: no table, no metric, no chart
    and no download is produced. *)
Theorem empty_portfolio_warning :
  calculate_and_visualize []
  = (Done tt, [], [Warning "Please add at least one fund."]).
Proof. reflexivity. Qed.

(** ** Sums of per-fund values *)

Lemma future_values_length (funds : list Fund) :
  forall fvs, future_values funds = Ok fvs -> length fvs = length funds.
Proof.
  induction funds as [|fund rest IH]; intros fvs H.
  - now injection H as <-.
  - cbn [future_values] in H.
    destruct (fund_future_value fund) as [fv|e]; [|discriminate].
    cbn [mbind result_bind] in H.
    destruct (future_values rest) as [fvs'|e]; [|discriminate].
    injection H as <-. cbn. f_equal. now apply IH.
Qed.



(** ** Zero invested total *)



Example idle_fund_run :
  calculate_and_visualize [idle_fund]
  = (Failed ZeroDivisionError, [idle_fund],
     [ Subheader "📊 Investment Allocation";
       PieChart [ {| Fund_Name := "Idle"; Invested_Amount := 0 / 100;
                     Estimated_Returns := 0 / 100; Future_Value := 0 / 100 |} ];
       Divider;
       Subheader "💰 Investment Metrics";
       Metric "Total Invested" (0 + 0 * 10 * 12) None ]).
Proof. vm_compute. reflexivity. Qed.

(** ** Names in the table *)

Lemma table_rows_lookup (funds : list Fund) :
  forall (fvs : list Q) (idx i : nat) (f : Fund),
    length fvs = length funds ->
    funds !! i = Some f ->
    exists fv, fvs !! i = Some fv
               /\ table_rows idx funds fvs !! i = Some (table_row (idx + i) f fv).
Proof.
  induction funds as [|fund rest IH]; intros fvs idx i f Hlen Hi; [discriminate|].
  destruct fvs as [|fv fvs]; [discriminate|].
  destruct i as [|i].
  - injection Hi as ->. exists fv. rewrite Nat.add_0_r. split; reflexivity.
  - cbn in Hi, Hlen.
    destruct (IH fvs (S idx) i f ltac:(lia) Hi) as (fv' & Hfv' & Hrow).
    exists fv'. split; [exact Hfv'|].
    replace (idx + S i)%nat with (S idx + i)%nat by lia. exact Hrow.
Qed.

(** C9.  In a completed run, a fund at index [i] whose stored name is empty
    stands in the table (the one displayed and the one exported) at row [i]
    under the label "Fund i+1", and the fund list the run leaves is the one
    it started from, with that name still empty. *)
Theorem blank_name_gets_positional_label
    (funds funds' : list Fund) (out : list element) (i : nat) (f : Fund) :
  funds !! i = Some f ->
  fund_name f = ""%string ->
  calculate_and_visualize funds = (Done tt, funds', out) ->
  funds' = funds
  /\ exists df r,
       Dataframe df ∈ out
       /\ DownloadButton "Download Fund Details as CSV" (DetailsCsv df)
                         "sip_investment_details.csv" ∈ out
       /\ df !! i = Some r
       /\ Fund_Name r = ("Fund " ++ str (i + 1))%string.
Proof.
  intros Hi Hblank Hrun.
  assert (funds <> []) as Hne by (intros ->; discriminate).
  destruct (calculate_and_visualize_done _ _ _ Hne Hrun) as (t & Hloop & _ & -> & ->).
  split; [reflexivity|].
  destruct (report_loop_ok _ _ _ _ Hloop) as (fvs & Hfvs & _ & _ & Hdata).
  cbn [no_totals data app] in Hdata.
  destruct (table_rows_lookup funds fvs 0 i f) as (fv & _ & Hrow);
    [now apply future_values_length | assumption |].
  exists (data t), (table_row i f fv).
  split; [apply list_elem_of_lookup; now exists 9%nat|].
  split; [apply list_elem_of_lookup; now exists 11%nat|].
  split; [now rewrite Hdata, Hrow|].
  cbn. rewrite Hblank. reflexivity.
Qed.

Lemma blank_name_gets_positional_label_witness :
  (calculate_and_visualize [default_fund; one_year_fund]).1.2
  = [default_fund; one_year_fund]
  /\ exists df r,
       Dataframe df ∈ (calculate_and_visualize [default_fund; one_year_fund]).2
       /\ DownloadButton "Download Fund Details as CSV" (DetailsCsv df)
                         "sip_investment_details.csv"
          ∈ (calculate_and_visualize [default_fund; one_year_fund]).2
       /\ df !! 1%nat = Some r
       /\ Fund_Name r = "Fund 2"%string.
Proof.
  apply (blank_name_gets_positional_label
           [default_fund; one_year_fund] _ _ 1 one_year_fund).
  - reflexivity.
  - reflexivity.
  - vm_compute. reflexivity.
Defined.

(** * Properties of the fund list *)

(** ** Import *)

Lemma missing_columns_nil (df : DataFrame) :
  missing_columns df = [] <-> (forall col, col ∈ required_columns -> col ∈ columns df).
Proof.
  unfold missing_columns. split.
  - intros Hnil col Hcol.
    destruct (decide (col ∈ columns df)) as [Hin|Hout]; [assumption|].
    exfalso. eapply filter_nil_not_elem_of; [exact Hnil | exact Hout | exact Hcol].
  - intros Hall.
    destruct (filter _ _) as [|col rest] eqn:E; [reflexivity|].
    assert (col ∈ filter (λ col, col ∉ columns df) required_columns) as Hcol
      by (rewrite E; left).
    apply list_elem_of_filter in Hcol as [Hout Hreq]. destruct Hout. auto.
Qed.

(** C5.  An import that fails, because [pd.read_csv] raises or because a
    required column is absent from the header, draws one error message and
    leaves the fund list as it was; an import whose header has every
    required column replaces the fund list by the records of the table. *)
Theorem import_is_all_or_nothing (funds : list Fund) :
  (forall message,
      handle_csv_upload (Some (CsvRaises message)) funds
      = (Done tt, funds, [Error ("Error processing CSV: " ++ message)%string]))
  /\ (forall df col,
         col ∈ required_columns -> col ∉ columns df ->
         handle_csv_upload (Some (CsvFrame df)) funds
         = (Done tt, funds,
            [Error ("Missing columns in CSV: "
                    ++ String.concat ", " (missing_columns df))%string]))
  /\ (forall df,
         (forall col, col ∈ required_columns -> col ∈ columns df) ->
         handle_csv_upload (Some (CsvFrame df)) funds
         = (Done tt, to_dict_records df,
            [Success ("Successfully uploaded "
                      ++ str (length (to_dict_records df)) ++ " funds!")%string])).
Proof.
  split; [reflexivity|]. split.
  - intros df col Hreq Hout. unfold handle_csv_upload. fold (missing_columns df).
    destruct (missing_columns df) as [|c rest] eqn:E; [|reflexivity].
    exfalso. apply Hout. now apply (proj1 (missing_columns_nil df)).
  - intros df Hall. unfold handle_csv_upload. fold (missing_columns df).
    rewrite (proj2 (missing_columns_nil df) Hall). reflexivity.
Qed.

Lemma import_is_all_or_nothing_witness :
  handle_csv_upload (Some (CsvFrame frame_without_years)) [default_fund]
  = (Done tt, [default_fund], [Error "Missing columns in CSV: years"])
  /\ handle_csv_upload (Some (CsvFrame complete_frame)) [default_fund]
     = (Done tt, [one_year_fund; idle_fund], [Success "Successfully uploaded 2 funds!"]).
Proof.
  destruct (import_is_all_or_nothing [default_fund]) as (_ & Hmissing & Hcomplete).
  split.
  - apply (Hmissing frame_without_years "years"%string).
    + apply list_elem_of_lookup. now exists 3%nat.
    + intros H. apply list_elem_of_lookup in H as [i H].
      do 4 (destruct i as [|i]; [discriminate|]). discriminate.
  - apply (Hcomplete complete_frame).
    intros col H. apply list_elem_of_lookup in H as [i H].
    apply list_elem_of_lookup. exists i.
    do 4 (destruct i as [|i]; [injection H as <-; reflexivity|]). discriminate.
Defined.

(** ** Adding a fund *)

(** C10.  A click on the add button appends one entry to the fund list, the
    default one (empty name, 1000 a month, 7 percent, 10 years), and reruns
    the script; the entries that were there keep their positions and their
    contents. *)
Theorem add_fund_appends_default (ui : browser) (funds : list Fund) :
  button ui (button_text funds) = true ->
  exists funds',
    add_fund_button ui funds = (Rerun, funds', [])
    /\ length funds' = S (length funds)
    /\ funds' !! length funds
       = Some {| fund_name := ""; monthly_investment := 1000;
                 rate_of_return := 7; years := 10 |}
    /\ (forall i f, funds !! i = Some f -> funds' !! i = Some f)
    /\ funds' = funds ++ [default_fund].
Proof.
  intros Hclick. exists (funds ++ [default_fund]).
  split; [|split; [|split; [|split]]].
  - unfold add_fund_button, mbind, script_bind. cbn [get_funds].
    rewrite Hclick. reflexivity.
  - rewrite length_app. cbn. lia.
  - now rewrite list_lookup_middle.
  - intros i f Hi. rewrite lookup_app_l; [assumption|].
    now apply lookup_lt_Some in Hi.
  - reflexivity.
Qed.

Lemma add_fund_appends_default_witness :
  exists funds',
    add_fund_button add_click [one_year_fund; idle_fund] = (Rerun, funds', [])
    /\ length funds' = 3%nat
    /\ funds' !! 2%nat
       = Some {| fund_name := ""; monthly_investment := 1000;
                 rate_of_return := 7; years := 10 |}
    /\ (forall i f, [one_year_fund; idle_fund] !! i = Some f -> funds' !! i = Some f)
    /\ funds' = [one_year_fund; idle_fund] ++ [default_fund].
Proof.
  apply (add_fund_appends_default add_click [one_year_fund; idle_fund]).
  reflexivity.
Defined.

(** ** A whole pass over the form *)

Lemma edit_fund_untouched (ui : browser) (i : nat) (fund : Fund) :
  untouched ui -> edit_fund ui i fund = fund.
Proof.
  intros (Htext & Hfloat & Hint & _). destruct fund. unfold edit_fund. cbn.
  now rewrite Htext, !Hfloat, Hint.
Qed.

(** With an untouched form the loop over the funds changes nothing and
    runs to its end. *)
Lemma fund_rows_untouched (ui : browser) (todo : list Fund) :
  untouched ui ->
  forall visited : list Fund,
    exists out,
      fund_rows ui (length visited) todo (visited ++ todo)
      = (Done tt, visited ++ todo, out).
Proof.
  intros Hui. induction todo as [|fund rest IH]; intros visited.
  - now eexists.
  - destruct (IH (visited ++ [fund])) as [out Hrest].
    rewrite length_app, <- app_assoc in Hrest. cbn [length app] in Hrest.
    replace (length visited + 1)%nat with (S (length visited)) in Hrest by lia.
    cbn [fund_rows]. unfold mbind, script_bind. cbn [draw get_funds set_funds].
    rewrite (edit_fund_untouched _ _ _ Hui).
    rewrite list_insert_id by now rewrite list_lookup_middle.
    destruct Hui as (_ & _ & _ & Hremove). rewrite Hremove, Hrest.
    now eexists.
Qed.

(** A pass with no upload, an untouched form and a click on the add button
    ends in a rerun with the default fund appended to the list. *)
Lemma render_fund_inputs_add (ui : browser) (funds : list Fund) :
  file_uploader ui = None -> untouched ui ->
  button ui (button_text funds) = true ->
  exists out,
    render_fund_inputs ui funds = (Rerun, funds ++ [default_fund], out).
Proof.
  intros Hfile Hui Hclick.
  destruct (fund_rows_untouched ui funds Hui []) as [out Hrows].
  cbn [length app] in Hrows.
  unfold render_fund_inputs, mbind, script_bind. rewrite Hfile.
  cbn [draw handle_csv_upload mret script_ret get_funds]. rewrite Hrows.
  unfold add_fund_button, mbind, script_bind. cbn [get_funds].
  rewrite Hclick. cbn [set_funds st_rerun]. now eexists.
Qed.

(** A pass with a failing upload and an untouched form in which no button
    is clicked leaves the fund list as it was. *)
Lemma render_fund_inputs_failed_import
    (ui : browser) (funds : list Fund) (message : string) :
  file_uploader ui = Some (CsvRaises message) -> untouched ui ->
  button ui (button_text funds) = false ->
  exists out, render_fund_inputs ui funds = (Done tt, funds, out).
Proof.
  intros Hfile Hui Hclick.
  destruct (fund_rows_untouched ui funds Hui []) as [out Hrows].
  cbn [length app] in Hrows.
  unfold render_fund_inputs, mbind, script_bind. rewrite Hfile.
  cbn [draw handle_csv_upload mret script_ret get_funds]. rewrite Hrows.
  unfold add_fund_button, mbind, script_bind. cbn [get_funds].
  rewrite Hclick. cbn [mret script_ret draw]. now eexists.
Qed.

(** ** The table *)

Lemma table_rows_length (funds : list Fund) :
  forall (fvs : list Q) (idx : nat),
    length fvs = length funds -> length (table_rows idx funds fvs) = length funds.
Proof.
  induction funds as [|fund rest IH]; intros [|fv fvs] idx Hlen;
    try discriminate; [reflexivity|].
  cbn [table_rows length]. f_equal. apply IH. cbn in Hlen. lia.
Qed.

Lemma future_values_lookup (funds : list Fund) :
  forall (fvs : list Q) (i : nat) (f : Fund) (fv : Q),
    future_values funds = Ok fvs ->
    funds !! i = Some f -> fvs !! i = Some fv ->
    fund_future_value f = Ok fv.
Proof.
  induction funds as [|fund rest IH]; intros fvs i f fv Hfvs Hf Hfv; [discriminate|].
  cbn [future_values] in Hfvs.
  destruct (fund_future_value fund) as [v|e] eqn:Efund; [|discriminate].
  cbn [mbind result_bind] in Hfvs.
  destruct (future_values rest) as [vs|e] eqn:Erest; [|discriminate].
  injection Hfvs as <-. destruct i as [|i].
  - injection Hf as <-. injection Hfv as <-. exact Efund.
  - eapply IH; [reflexivity | exact Hf | exact Hfv].
Qed.

(** The table of a completed run, row by row. *)
Lemma completed_run_rows
    (funds funds' : list Fund) (out : list element) (i : nat) (f : Fund) :
  funds !! i = Some f ->
  calculate_and_visualize funds = (Done tt, funds', out) ->
  exists t fv,
    out = report_elements t
    /\ length (data t) = length funds
    /\ fund_future_value f = Ok fv
    /\ data t !! i = Some (table_row i f fv).
Proof.
  intros Hi Hrun.
  assert (funds <> []) as Hne by (intros ->; discriminate).
  destruct (calculate_and_visualize_done _ _ _ Hne Hrun) as (t & Hloop & _ & _ & ->).
  destruct (report_loop_ok _ _ _ _ Hloop) as (fvs & Hfvs & _ & _ & Hdata).
  cbn [no_totals data app] in Hdata.
  pose proof (future_values_length _ _ Hfvs) as Hlen.
  destruct (table_rows_lookup funds fvs 0 i f Hlen Hi) as (fv & Hfv & Hrow).
  exists t, fv. split; [reflexivity|].
  split; [rewrite Hdata; now apply table_rows_length|].
  split; [now apply (future_values_lookup funds fvs i)|].
  now rewrite Hdata.
Qed.

(** X10.  The table of a completed run has one row per fund, in the order
    of the fund list, and a fund whose name is not empty stands in its row
    under that name. *)
Theorem named_fund_keeps_its_name
    (funds funds' : list Fund) (out : list element) (i : nat) (f : Fund) :
  funds !! i = Some f ->
  fund_name f <> ""%string ->
  calculate_and_visualize funds = (Done tt, funds', out) ->
  exists df r,
    Dataframe df ∈ out
    /\ length df = length funds
    /\ df !! i = Some r
    /\ Fund_Name r = fund_name f.
Proof.
  intros Hi Hname Hrun.
  destruct (completed_run_rows _ _ _ _ _ Hi Hrun) as (t & fv & -> & Hlen & _ & Hrow).
  exists (data t), (table_row i f fv).
  split; [apply list_elem_of_lookup; now exists 9%nat|].
  split; [assumption|]. split; [assumption|].
  cbn. now destruct (decide (fund_name f = ""%string)).
Qed.

Lemma named_fund_keeps_its_name_witness :
  exists df r,
    Dataframe df ∈ (calculate_and_visualize [one_year_fund; idle_fund]).2
    /\ length df = 2%nat
    /\ df !! 1%nat = Some r
    /\ Fund_Name r = "Idle"%string.
Proof.
  apply (named_fund_keeps_its_name [one_year_fund; idle_fund]
           [one_year_fund; idle_fund] _ 1 idle_fund).
  - reflexivity.
  - discriminate.
  - vm_compute. reflexivity.
Defined.

(** * Further properties of the form *)

(** ** What the form draws *)

Lemma form_run_bind {A B : Type} (m : script A) (k : A -> script B) (funds : list Fund) :
  form_run (m funds) ->
  (forall a funds', form_run (k a funds')) ->
  form_run ((m ≫= k) funds).
Proof.
  intros [Hm Hout] Hk. unfold mbind, script_bind.
  destruct (m funds) as [[[a|e|] funds'] out]; cbn [fst snd] in *.
  - specialize (Hk a funds'). destruct (k a funds') as [[o funds''] out'].
    destruct Hk as [Hk Hout']. cbn [fst snd] in *.
    split; [assumption | now apply Forall_app].
  - now destruct (Hm e).
  - split; [discriminate | assumption].
Qed.

Lemma form_run_draw (e : element) (funds : list Fund) :
  form_element e -> form_run (draw e funds).
Proof. intros He. split; [discriminate | now repeat constructor]. Qed.

Lemma form_run_silent {A : Type} (o : outcome A) (funds : list Fund) :
  (forall e, o <> Failed e) -> form_run (o, funds, []).
Proof. intros Ho. split; [exact Ho | constructor]. Qed.

Lemma handle_csv_upload_form_run (uploaded : option read_csv_outcome) (funds : list Fund) :
  form_run (handle_csv_upload uploaded funds).
Proof.
  destruct uploaded as [[df|message]|]; cbn [handle_csv_upload].
  - destruct (filter _ _); [|now apply form_run_draw].
    apply form_run_bind; [now apply form_run_silent|]. intros _ funds1.
    apply form_run_bind; [now apply form_run_silent|]. intros funds2 funds3.
    now apply form_run_draw.
  - now apply form_run_draw.
  - now apply form_run_silent.
Qed.

Lemma fund_rows_form_run (ui : browser) (todo : list Fund) :
  forall (i : nat) (funds : list Fund), form_run (fund_rows ui i todo funds).
Proof.
  induction todo as [|fund rest IH]; intros i funds; cbn [fund_rows].
  - now apply form_run_silent.
  - apply form_run_bind; [now apply form_run_draw|]. intros _ funds1.
    apply form_run_bind; [now apply form_run_silent|]. intros funds2 funds3.
    apply form_run_bind; [now apply form_run_silent|]. intros _ funds4.
    destruct (button ui _); [|apply IH].
    apply form_run_bind; [now apply form_run_silent|]. intros funds5 funds6.
    apply form_run_bind; [now apply form_run_silent|]. intros _ funds7.
    now apply form_run_silent.
Qed.

Lemma add_fund_button_form_run (ui : browser) (funds : list Fund) :
  form_run (add_fund_button ui funds).
Proof.
  unfold add_fund_button.
  apply form_run_bind; [now apply form_run_silent|]. intros funds1 funds2.
  destruct (button ui _); [|now apply form_run_silent].
  apply form_run_bind; [now apply form_run_silent|]. intros funds3 funds4.
  apply form_run_bind; [now apply form_run_silent|]. intros _ funds5.
  now apply form_run_silent.
Qed.

Lemma render_fund_inputs_form_run (ui : browser) (funds : list Fund) :
  form_run (render_fund_inputs ui funds).
Proof.
  unfold render_fund_inputs.
  apply form_run_bind; [now apply form_run_draw|]. intros _ funds1.
  apply form_run_bind; [now apply form_run_draw|]. intros _ funds2.
  apply form_run_bind; [apply handle_csv_upload_form_run|]. intros _ funds3.
  apply form_run_bind; [now apply form_run_silent|]. intros funds4 funds5.
  apply form_run_bind; [apply fund_rows_form_run|]. intros _ funds6.
  apply form_run_bind; [apply add_fund_button_form_run|]. intros _ funds7.
  now apply form_run_draw.
Qed.


(** ** What a pass does to the fund list *)

(** One turn of the loop over the funds. *)
Lemma fund_rows_cons (ui : browser) (i : nat) (fund : Fund) (rest funds : list Fund) :
  fund_rows ui i (fund :: rest) funds
  = let heading := Write ("#### Fund " ++ str (i + 1))%string in
    let funds1 := <[i := edit_fund ui i fund]> funds in
    if button ui ("remove_" ++ str i)%string
    then (Rerun, delete i funds1, [heading])
    else let '(o, funds2, out) := fund_rows ui (S i) rest funds1 in
         (o, funds2, heading :: out).
Proof.
  cbn [fund_rows]. unfold mbind, script_bind.
  cbn [draw get_funds set_funds st_rerun app].
  destruct (button ui _); [reflexivity|].
  now destruct (fund_rows ui (S i) rest _) as [[o funds2] out].
Qed.

Lemma edit_in_place (visited rest : list Fund) (fund fund' : Fund) :
  <[length visited := fund']> (visited ++ fund :: rest) = visited ++ fund' :: rest.
Proof.
  rewrite insert_app_r_alt by lia. now rewrite Nat.sub_diag.
Qed.

(** Without a click on a remove button the loop runs to its end and has
    written the values of the widgets into every fund. *)
Lemma fund_rows_no_click (ui : browser) (todo : list Fund) :
  forall visited : list Fund,
    (forall j, (j < length todo)%nat ->
               button ui ("remove_" ++ str (length visited + j))%string = false) ->
    exists out,
      fund_rows ui (length visited) todo (visited ++ todo)
      = (Done tt,
         visited ++ imap (λ j, edit_fund ui (length visited + j)) todo, out).
Proof.
  induction todo as [|fund rest IH]; intros visited Hquiet.
  - now eexists.
  - rewrite fund_rows_cons. cbv zeta. rewrite edit_in_place.
    pose proof (Hquiet 0%nat ltac:(cbn; lia)) as H0.
    rewrite Nat.add_0_r in H0. rewrite H0.
    destruct (IH (visited ++ [edit_fund ui (length visited) fund])) as [out Hrest].
    { intros j Hj. rewrite length_app. cbn [length].
      replace (length visited + 1 + j)%nat with (length visited + S j)%nat by lia.
      apply Hquiet. cbn. lia. }
    rewrite length_app, <- app_assoc in Hrest. cbn [length app] in Hrest.
    replace (length visited + 1)%nat with (S (length visited)) in Hrest by lia.
    rewrite Hrest. eexists. rewrite <- app_assoc. cbn [app].
    rewrite imap_cons, Nat.add_0_r.
    rewrite (imap_ext ((λ j, edit_fund ui (length visited + j)) ∘ S)
               (λ j, edit_fund ui (S (length visited) + j)) rest);
      [reflexivity|].
    intros j x _. cbn. f_equal. lia.
Qed.

(** A click on the remove button of a fund ends the loop there: the funds
    before it carry the values of their widgets, the fund is gone, and the
    funds behind it are as they were stored. *)
Lemma fund_rows_remove (ui : browser) (todo : list Fund) :
  forall (visited : list Fund) (j : nat),
    (j < length todo)%nat ->
    button ui ("remove_" ++ str (length visited + j))%string = true ->
    (forall k, (k < j)%nat ->
               button ui ("remove_" ++ str (length visited + k))%string = false) ->
    exists out,
      fund_rows ui (length visited) todo (visited ++ todo)
      = (Rerun,
         visited ++ imap (λ k, edit_fund ui (length visited + k)) (take j todo)
                 ++ drop (S j) todo,
         out).
Proof.
  induction todo as [|fund rest IH]; intros visited j Hj Hclick Hbefore;
    [cbn in Hj; lia|].
  rewrite fund_rows_cons. cbv zeta. rewrite edit_in_place.
  destruct j as [|j].
  - rewrite Nat.add_0_r in Hclick. rewrite Hclick, delete_middle.
    now eexists.
  - pose proof (Hbefore 0%nat ltac:(lia)) as H0.
    rewrite Nat.add_0_r in H0. rewrite H0.
    destruct (IH (visited ++ [edit_fund ui (length visited) fund]) j) as [out Hrest].
    { cbn in Hj. lia. }
    { rewrite length_app. cbn [length].
      now replace (length visited + 1 + j)%nat with (length visited + S j)%nat by lia. }
    { intros k Hk. rewrite length_app. cbn [length].
      replace (length visited + 1 + k)%nat with (length visited + S k)%nat by lia.
      apply Hbefore. lia. }
    rewrite length_app, <- app_assoc in Hrest. cbn [length app] in Hrest.
    replace (length visited + 1)%nat with (S (length visited)) in Hrest by lia.
    rewrite Hrest. eexists. rewrite <- app_assoc. cbn [app take drop].
    rewrite imap_cons, Nat.add_0_r. cbn [app].
    rewrite (imap_ext ((λ k, edit_fund ui (length visited + k)) ∘ S)
               (λ k, edit_fund ui (S (length visited) + k)) (take j rest));
      [reflexivity|].
    intros k x _. cbn. f_equal. lia.
Qed.

Lemma render_fund_inputs_no_upload (ui : browser) (funds : list Fund) :
  file_uploader ui = None ->
  render_fund_inputs ui funds
  = let heading := [Write "### Add Multiple SIPs";
                    Caption "Configure your Systematic Investment Plans"] in
    match fund_rows ui 0 funds funds with
    | (Done _, funds1, out1) =>
        let '(o, funds2, out2) :=
          (add_fund_button ui;; draw Divider) funds1 in
        (o, funds2, heading ++ out1 ++ out2)
    | (Failed e, funds1, out1) => (Failed e, funds1, heading ++ out1)
    | (Rerun, funds1, out1) => (Rerun, funds1, heading ++ out1)
    end.
Proof.
  intros Hfile. unfold render_fund_inputs. rewrite Hfile.
  unfold mbind at 1 2 3 4 5, script_bind.
  cbn [draw handle_csv_upload mret script_ret get_funds].
  destruct (fund_rows ui 0 funds funds) as [[[[]|e|] funds1] out1]; try reflexivity.
  now destruct ((add_fund_button ui;; draw Divider) funds1) as [[o funds2] out2].
Qed.

(** X16.  In a pass with no upload, where neither a remove button nor the
    add button is clicked, the fund list keeps its length and every fund is
    replaced by what its four widgets return: the fund at index [i] becomes
    [edit_fund ui i] of it. *)
Theorem pass_writes_widget_values (ui : browser) (funds : list Fund) :
  file_uploader ui = None ->
  (forall i, (i < length funds)%nat -> button ui ("remove_" ++ str i)%string = false) ->
  button ui (button_text (imap (edit_fund ui) funds)) = false ->
  exists out,
    render_fund_inputs ui funds = (Done tt, imap (edit_fund ui) funds, out)
    /\ length (imap (edit_fund ui) funds) = length funds
    /\ forall i, imap (edit_fund ui) funds !! i = edit_fund ui i <$> funds !! i.
Proof.
  intros Hfile Hquiet Hadd.
  destruct (fund_rows_no_click ui funds [] Hquiet) as [out Hrows].
  cbn [length app Nat.add] in Hrows.
  change (imap _ funds) with (imap (edit_fund ui) funds) in Hrows.
  rewrite render_fund_inputs_no_upload by assumption. cbv zeta.
  rewrite Hrows. unfold add_fund_button, mbind, script_bind.
  cbn [get_funds]. rewrite Hadd. cbn [mret script_ret draw].
  eexists. split; [reflexivity|]. split; [apply length_imap|].
  intros i. apply list_lookup_imap.
Qed.

Lemma pass_writes_widget_values_witness :
  exists out,
    render_fund_inputs typing [default_fund; idle_fund]
    = (Done tt, imap (edit_fund typing) [default_fund; idle_fund], out)
    /\ length (imap (edit_fund typing) [default_fund; idle_fund])
       = length [default_fund; idle_fund]
    /\ forall i, imap (edit_fund typing) [default_fund; idle_fund] !! i
                 = edit_fund typing i <$> [default_fund; idle_fund] !! i.
Proof.
  apply (pass_writes_widget_values typing [default_fund; idle_fund]);
    reflexivity.
Defined.

Example typing_renames_first_fund :
  (render_fund_inputs typing [default_fund; idle_fund]).1.2
  = [ {| fund_name := "Gold"; monthly_investment := 1000;
         rate_of_return := 7; years := 10 |}; idle_fund ].
Proof. reflexivity. Qed.


(** ** Removing a fund *)

(** X17.  In a pass with no upload, a click on the remove button of the
    fund at index [i] (none before it being clicked) ends the pass in a
    rerun, whatever the add button says.  The list is then one shorter: the
    funds before [i] carry the values of their widgets, the fund at [i] is
    gone, and every fund behind it has moved down by one place with its
    stored contents unchanged. *)
Theorem remove_click_drops_fund (ui : browser) (funds : list Fund) (i : nat) :
  file_uploader ui = None ->
  (i < length funds)%nat ->
  first_remove_click ui i ->
  exists funds' out,
    render_fund_inputs ui funds = (Rerun, funds', out)
    /\ funds' = imap (edit_fund ui) (take i funds) ++ drop (S i) funds
    /\ S (length funds') = length funds
    /\ (forall j, (j < i)%nat -> funds' !! j = edit_fund ui j <$> funds !! j)
    /\ (forall j, (i <= j)%nat -> funds' !! j = funds !! S j).
Proof.
  intros Hfile Hi [Hclick Hbefore].
  destruct (fund_rows_remove ui funds [] i Hi Hclick Hbefore) as [out Hrows].
  cbn [length app Nat.add] in Hrows.
  change (imap _ (take i funds)) with (imap (edit_fund ui) (take i funds)) in Hrows.
  rewrite render_fund_inputs_no_upload by assumption. cbv zeta. rewrite Hrows.
  do 2 eexists. split; [reflexivity|]. split; [reflexivity|].
  assert (length (imap (edit_fund ui) (take i funds)) = i) as Hlen.
  { rewrite length_imap, length_take. lia. }
  split; [|split].
  - rewrite length_app, Hlen, length_drop. lia.
  - intros j Hj. rewrite lookup_app_l by lia.
    rewrite list_lookup_imap, lookup_take_lt by lia. reflexivity.
  - intros j Hj. rewrite lookup_app_r by lia.
    rewrite Hlen, lookup_drop. f_equal. lia.
Qed.

Lemma remove_click_drops_fund_witness :
  exists funds' out,
    render_fund_inputs remove_second [one_year_fund; idle_fund; default_fund]
    = (Rerun, funds', out)
    /\ funds' = imap (edit_fund remove_second)
                     (take 1 [one_year_fund; idle_fund; default_fund])
                ++ drop 2 [one_year_fund; idle_fund; default_fund]
    /\ S (length funds') = 3%nat
    /\ (forall j, (j < 1)%nat ->
          funds' !! j = edit_fund remove_second j
                        <$> [one_year_fund; idle_fund; default_fund] !! j)
    /\ (forall j, (1 <= j)%nat ->
          funds' !! j = [one_year_fund; idle_fund; default_fund] !! S j).
Proof.
  apply (remove_click_drops_fund remove_second
           [one_year_fund; idle_fund; default_fund] 1).
  - reflexivity.
  - cbn. lia.
  - split; [reflexivity|].
    intros j Hj. assert (j = 0%nat) as -> by lia. reflexivity.
Defined.

Example remove_second_result :
  (render_fund_inputs remove_second [one_year_fund; idle_fund; default_fund]).1
  = (Rerun, [one_year_fund; default_fund]).
Proof. reflexivity. Qed.

(** ** An upload replaces whatever was there *)

(** X18.  While a table with all required columns is uploaded, a pass does
    not depend on the fund list it starts from: the list is first replaced
    by the records of the table, so funds added or edited before are lost. *)
Theorem complete_upload_overrides_list
    (ui : browser) (df : DataFrame) (funds1 funds2 : list Fund) :
  file_uploader ui = Some (CsvFrame df) ->
  (forall col, col ∈ required_columns -> col ∈ columns df) ->
  render_fund_inputs ui funds1 = render_fund_inputs ui funds2.
Proof.
  intros Hfile Hall. unfold render_fund_inputs. rewrite Hfile.
  unfold mbind at 1 2 3 7 8 9, script_bind.
  cbn [draw]. unfold handle_csv_upload. fold (missing_columns df).
  rewrite (proj2 (missing_columns_nil df) Hall).
  unfold mbind at 1 2 9 10, script_bind. cbn [set_funds get_funds draw].
  reflexivity.
Qed.

Lemma complete_upload_overrides_list_witness :
  render_fund_inputs uploading [default_fund]
  = render_fund_inputs uploading [].
Proof.
  apply (complete_upload_overrides_list uploading complete_frame).
  - reflexivity.
  - intros col H. apply list_elem_of_lookup in H as [i H].
    apply list_elem_of_lookup. exists i.
    do 4 (destruct i as [|i]; [injection H as <-; reflexivity|]). discriminate.
Defined.


(** * Properties of a whole run *)

Lemma main_unfold (ui : browser) (session : option (list Fund)) :
  main ui session
  = let funds0 := initialize_session_state session in
    let heading := Title "💰 SIP Investment Calculator"
                   :: Body (Caption "Plan and Visualize Your Systematic Investment Strategy")
                   :: render_instructions in
    match render_fund_inputs ui funds0 with
    | (Done _, funds1, out1) =>
        if button ui "Calculate Future Values"
        then let '(o, funds2, out2) := calculate_and_visualize funds1 in
             (o, funds2, heading ++ (Body <$> out1 ++ out2))
        else (Done tt, funds1, heading ++ (Body <$> out1 ++ []))
    | (Failed e, funds1, out1) => (Failed e, funds1, heading ++ (Body <$> out1))
    | (Rerun, funds1, out1) => (Rerun, funds1, heading ++ (Body <$> out1))
    end.
Proof.
  unfold main, form_then_report. unfold mbind at 1, script_bind.
  destruct (render_fund_inputs ui _) as [[[[]|e|] funds1] out1]; try reflexivity.
  destruct (button ui _); [|reflexivity].
  now destruct (calculate_and_visualize funds1) as [[o funds2] out2].
Qed.

(** X19.  A run in which the button of the report is not clicked, or in
    which the form ends in a rerun, puts no report element on the page:
    only the title, the instructions and what the form draws. *)
Theorem no_report_without_click (ui : browser) (session : option (list Fund)) :
  button ui "Calculate Future Values" = false
  \/ (render_fund_inputs ui (initialize_session_state session)).1.1 = Rerun ->
  Forall outside_report (main ui session).2.
Proof.
  intros Hcase. rewrite main_unfold. cbv zeta.
  destruct (render_fund_inputs_form_run ui (initialize_session_state session))
    as [Hok Hform].
  assert (forall out, Forall form_element out -> Forall outside_report (Body <$> out))
    as Hbody.
  { intros out H. apply Forall_fmap. eapply Forall_impl; [exact H | auto]. }
  destruct (render_fund_inputs ui _) as [[[[]|e|] funds1] out1]; cbn [fst snd] in *.
  - destruct Hcase as [-> | H]; [|discriminate].
    rewrite app_nil_r.
    repeat (constructor; [exact I|]). now apply Hbody.
  - now destruct (Hok e).
  - repeat (constructor; [exact I|]). now apply Hbody.
Qed.

Lemma no_report_without_click_witness :
  Forall outside_report (main add_click (Some [one_year_fund])).2.
Proof.
  apply (no_report_without_click add_click (Some [one_year_fund])).
  left. reflexivity.
Defined.

(** X20.  When the form runs to its end and the button of the report is
    clicked, the report is computed from the fund list as the form has
    left it in this run, the values typed into the widgets included; the
    run ends as the report ends and leaves that same list. *)
Theorem report_uses_edited_funds
    (ui : browser) (session : option (list Fund))
    (funds1 : list Fund) (out1 : list element) :
  render_fund_inputs ui (initialize_session_state session) = (Done tt, funds1, out1) ->
  button ui "Calculate Future Values" = true ->
  (main ui session).1 = ((calculate_and_visualize funds1).1.1, funds1)
  /\ (main ui session).2
     = Title "💰 SIP Investment Calculator"
       :: Body (Caption "Plan and Visualize Your Systematic Investment Strategy")
       :: render_instructions
       ++ (Body <$> out1 ++ (calculate_and_visualize funds1).2).
Proof.
  intros Hform Hclick. rewrite main_unfold. cbv zeta. rewrite Hform, Hclick.
  pose proof (calculate_and_visualize_keeps_funds funds1) as Hkeep.
  destruct (calculate_and_visualize funds1) as [[o funds2] out2].
  cbn [fst snd] in *. subst funds2. split; reflexivity.
Qed.

Lemma report_uses_edited_funds_witness :
  (main typing_then_calculate (Some [default_fund])).1
  = ((calculate_and_visualize
        [ {| fund_name := "Gold"; monthly_investment := 1000;
             rate_of_return := 7; years := 10 |} ]).1.1,
     [ {| fund_name := "Gold"; monthly_investment := 1000;
          rate_of_return := 7; years := 10 |} ])
  /\ (main typing_then_calculate (Some [default_fund])).2
     = Title "💰 SIP Investment Calculator"
       :: Body (Caption "Plan and Visualize Your Systematic Investment Strategy")
       :: render_instructions
       ++ (Body <$> (render_fund_inputs typing_then_calculate [default_fund]).2
                    ++ (calculate_and_visualize
                          [ {| fund_name := "Gold"; monthly_investment := 1000;
                               rate_of_return := 7; years := 10 |} ]).2).
Proof.
  apply (report_uses_edited_funds typing_then_calculate (Some [default_fund])).
  - reflexivity.
  - reflexivity.
Defined.

(** X21.  On a first visit (no fund list in the session yet) with no
    upload, a click on the button of the report alone ends the run
    normally with an empty fund list and the warning that asks for a fund
    as the last element of the page. *)
Theorem first_visit_calculate_warns (ui : browser) :
  file_uploader ui = None ->
  button ui "Add Fund" = false ->
  button ui "Calculate Future Values" = true ->
  (main ui None).1 = (Done tt, [])
  /\ last (main ui None).2 = Some (Body (Warning "Please add at least one fund.")).
Proof.
  intros Hfile Hadd Hclick. rewrite main_unfold. cbv zeta.
  cbn [initialize_session_state].
  rewrite render_fund_inputs_no_upload by assumption. cbv zeta.
  cbn [fund_rows mret script_ret]. unfold add_fund_button, mbind, script_bind.
  cbn [get_funds button_text length Nat.eqb]. rewrite Hadd.
  cbn [mret script_ret draw app]. rewrite Hclick.
  split; reflexivity.
Qed.

Lemma first_visit_calculate_warns_witness :
  (main calculate_at_once None).1 = (Done tt, [])
  /\ last (main calculate_at_once None).2
     = Some (Body (Warning "Please add at least one fund.")).
Proof.
  apply (first_visit_calculate_warns calculate_at_once); reflexivity.
Defined.


(** * The add button in a whole pass *)

(** X22.  In a pass with no upload and no click on a remove button, a click
    on the add button ends the pass in a rerun with the default fund
    appended behind the funds, each of which carries the values of its
    widgets. *)
Theorem add_click_keeps_edits (ui : browser) (funds : list Fund) :
  file_uploader ui = None ->
  (forall i, (i < length funds)%nat -> button ui ("remove_" ++ str i)%string = false) ->
  button ui (button_text funds) = true ->
  exists out,
    render_fund_inputs ui funds
    = (Rerun, imap (edit_fund ui) funds ++ [default_fund], out).
Proof.
  intros Hfile Hquiet Hadd.
  destruct (fund_rows_no_click ui funds [] Hquiet) as [out Hrows].
  cbn [length app Nat.add] in Hrows.
  change (imap _ funds) with (imap (edit_fund ui) funds) in Hrows.
  rewrite render_fund_inputs_no_upload by assumption. cbv zeta.
  rewrite Hrows. unfold add_fund_button, mbind, script_bind.
  cbn [get_funds].
  replace (button_text (imap (edit_fund ui) funds)) with (button_text funds)
    by (unfold button_text; now rewrite length_imap).
  rewrite Hadd. cbn [set_funds st_rerun]. now eexists.
Qed.

Lemma add_click_keeps_edits_witness :
  exists out,
    render_fund_inputs add_click [one_year_fund; idle_fund]
    = (Rerun, imap (edit_fund add_click) [one_year_fund; idle_fund] ++ [default_fund],
       out).
Proof.
  apply (add_click_keeps_edits add_click [one_year_fund; idle_fund]); reflexivity.
Defined.

(** * The calculator in binary64 *)

(** ** What the calculator returns and when it raises *)

Lemma binary64_cases (c rate : float) (years : Z) :
  B64.calculate_sip_future_value c rate years
  = match B64.pow (1 + rate / 100 / 12)%float (years * 12) with
    | B64.Ok p =>
        if (rate / 100 / 12 =? 0)%float
        then B64.Raise B64.ZeroDivisionError
        else B64.Ok (B64.annuity_due c (rate / 100 / 12)%float p)
    | B64.Raise e => B64.Raise e
    end.
Proof.
  unfold B64.calculate_sip_future_value, B64.annuity_due. cbv zeta.
  destruct (B64.pow _ _) as [p|e]; [|reflexivity].
  cbn [mbind B64.result_bind]. unfold B64.truediv.
  now destruct (_ =? _)%float.
Qed.



(** Scenario A of the specification: 12809.328043328946, shown in the
    table as 12809.33. *)
Example binary64_scenario_A :
  B64.calculate_sip_future_value 1000 12 1 = B64.Ok 0x1.904a9fd52e4bfp+13%float
  /\ B64.round2 0x1.904a9fd52e4bfp+13 = 0x1.904aa3d70a3d7p+13%float.
Proof. split; vm_compute; reflexivity. Qed.

(** The default fund, 1000 a month at 7 percent for ten years:
    174094.46881023268. *)
Example binary64_default_fund :
  B64.calculate_sip_future_value 1000 7 10 = B64.Ok 0x1.54073c01f944bp+17%float.
Proof. vm_compute. reflexivity. Qed.

(** [round(x, 2)] looks at the exact value of the float: 0.125 and 0.375
    are ties and go to the even cent, and 1000.00125 * 1 * 12, which in
    binary64 lies just below 12000.015, goes down to 12000.01. *)
Example binary64_round2 :
  B64.round2 0x1p-3 = 0x1.eb851eb851eb8p-4%float
  /\ B64.round2 0x1.8p-2 = 0x1.851eb851eb852p-2%float
  /\ B64.round2 (0x1.f40028f5c28f6p+9 * 1 * 12) = 0x1.7700147ae147bp+13%float.
Proof. repeat split; vm_compute; reflexivity. Qed.

(** ** Small rates *)

(** With a contribution of zero the value is zero, as is the invested
    amount. *)
Example binary64_zero_contribution :
  B64.calculate_sip_future_value 0 12 1 = B64.Ok 0%float
  /\ B64.calculate_sip_future_value 0 12 2 = B64.Ok 0%float
  /\ (0 * 1 * 12 <? 0)%float = false.
Proof. repeat split; vm_compute; reflexivity. Qed.

(** At the rate [2^-50] the sum [1 + monthly_rate] rounds to one, the power
    is one and the value returned is zero, for one year and for two, with
    1000 paid in every month. *)
Example binary64_tiny_rate :
  (0 <? 0x1p-50)%float = true
  /\ B64.calculate_sip_future_value 1000 0x1p-50 1 = B64.Ok 0%float
  /\ B64.calculate_sip_future_value 1000 0x1p-50 2 = B64.Ok 0%float.
Proof. repeat split; vm_compute; reflexivity. Qed.

(** At the rate [2^-30] the value returned for one year of 1000 a month is
    11999.130249032749, below the 12000 paid in. *)
Example binary64_small_rate :
  B64.calculate_sip_future_value 1000 0x1p-30 1
  = B64.Ok 0x1.76f90ac0013ffp+13%float
  /\ (0x1.76f90ac0013ffp+13 <? 1000 * 1 * 12)%float = true.
Proof. split; vm_compute; reflexivity. Qed.

(** ** Zero rate *)

(** X1.  In binary64 as well, a rate of zero ([0.0] or [-0.0]) makes the
    calculator raise [ZeroDivisionError] for every contribution, as soon as
    the number of months is an int that [float] can hold (beyond that the
    power raises [OverflowError] first). *)
Theorem binary64_zero_rate_raises (c rate w : float) (years : Z) :
  rate = 0%float \/ rate = (-0)%float ->
  B64.float_of_int (years * 12) = B64.Ok w ->
  B64.calculate_sip_future_value c rate years = B64.Raise B64.ZeroDivisionError.
Proof.
  intros Hrate Hw. rewrite binary64_cases.
  assert ((1 + rate / 100 / 12)%float = 1%float
          /\ (rate / 100 / 12 =? 0)%float = true) as [-> ->].
  { destruct Hrate as [-> | ->]; split; vm_compute; reflexivity. }
  unfold B64.pow. rewrite Hw. cbn [mbind B64.result_bind].
  destruct (is_zero w); reflexivity.
Qed.

Lemma binary64_zero_rate_raises_witness :
  B64.calculate_sip_future_value 1000 0 5 = B64.Raise B64.ZeroDivisionError.
Proof.
  apply (binary64_zero_rate_raises 1000 0 60 5); [now left | vm_compute; reflexivity].
Defined.

(** * The report loop in binary64 *)

Lemma binary64_report_step_unfold (idx : nat) (fund : B64.Fund) (acc : B64.totals) :
  B64.report_step idx fund acc
  = fv ← B64.future_value fund;
    inv ← B64.invested_amount fund;
    B64.Ok {| B64.total_future_value := (B64.total_future_value acc + fv)%float;
              B64.total_invested_amount := (B64.total_invested_amount acc + inv)%float;
              B64.data := B64.data acc ++ [B64.table_row idx fund fv inv] |}.
Proof. reflexivity. Qed.





(** ** A fund that raises *)

(** X9.  The loop stops at the first fund for which the calculator or the
    invested amount raises, with that exception, whatever the funds behind
    it are: no totals and no rows are produced. *)
Theorem binary64_first_raise_stops_loop
    (before after : list B64.Fund) (f : B64.Fund) (e : B64.exception)
    (vs : list (float * float)) (idx : nat) (acc : B64.totals) :
  B64.per_fund before = B64.Ok vs ->
  (fv ← B64.future_value f; B64.invested_amount f) = B64.Raise e ->
  B64.report_loop idx (before ++ f :: after) acc = B64.Raise e.
Proof.
  revert vs idx acc.
  induction before as [|g before IH]; intros vs idx acc Hvs Hf.
  - cbn [app B64.report_loop]. rewrite binary64_report_step_unfold.
    destruct (B64.future_value f) as [fv|e']; cbn [mbind B64.result_bind] in *;
      [|now injection Hf as ->].
    destruct (B64.invested_amount f) as [inv|e']; [discriminate|].
    now injection Hf as ->.
  - cbn [app B64.report_loop]. rewrite binary64_report_step_unfold.
    cbn [B64.per_fund] in Hvs.
    destruct (B64.future_value g) as [fv|e']; [|discriminate].
    cbn [mbind B64.result_bind] in *.
    destruct (B64.invested_amount g) as [inv|e']; [|discriminate].
    cbn [mbind B64.result_bind] in *.
    destruct (B64.per_fund before) as [vs'|e'] eqn:Ebefore; [|discriminate].
    eapply IH; [reflexivity | exact Hf].
Qed.

Lemma binary64_first_raise_stops_loop_witness :
  B64.report_loop 0
    ([B64.one_year_fund]
     ++ {| B64.fund_name := "Boom"; B64.monthly_investment := 1000;
           B64.rate_of_return := 1200; B64.years := 100 |}
     :: [B64.default_fund])
    B64.no_totals
  = B64.Raise B64.OverflowError.
Proof.
  apply (binary64_first_raise_stops_loop [B64.one_year_fund] [B64.default_fund]
           {| B64.fund_name := "Boom"; B64.monthly_investment := 1000;
              B64.rate_of_return := 1200; B64.years := 100 |}
           B64.OverflowError
           [(0x1.904a9fd52e4bfp+13, 0x1.77p+13)%float]);
    vm_compute; reflexivity.
Defined.
